(** * pyramid_uniform: a shallow embedding of [pyramid_uniform/__init__.py]

    The module binds a web request to a FormEncode schema ([Form]) and
    renders form controls over validated data ([Renderer],
    [FormRenderer]).  Python objects that the module shares and may mutate
    (the request's parameter mappings, the mapping kept in [Form._data])
    live in a store of mappings and are handled through references; a
    mapping is a plain [dict] or a WebOb [MultiDict], which keeps every
    value of a repeated key.  The methods of [Form] run in a state-and-exception monad over that
    store, the form object itself and a trace of the calls made to the
    external collaborators (session, schema engine, logger). *)

From stdpp Require Import base option list strings gmap fin_maps.

Open Scope string_scope.
Open Scope list_scope.

(** ** Python values *)

(** The values that flow through the module: [None], booleans, strings
    and lists.  On this universe Python's [==] is structural equality. *)
#[local] Unset Elimination Schemes.
Inductive val :=
| VNone
| VBool (b : bool)
| VStr (s : string)
| VList (l : list val).
#[local] Set Elimination Schemes.

Global Instance value_eq_dec : EqDecision val.
Proof.
  refine (fix go (x y : val) {struct x} : Decision (x = y) :=
    match x, y with
    | VNone, VNone => left _
    | VBool a, VBool b => cast_if (decide (a = b))
    | VStr a, VStr b => cast_if (decide (a = b))
    | VList a, VList b => cast_if (@list_eq_dec _ go a b)
    | _, _ => right _
    end); clear go; abstract congruence.
Defined.

Global Instance value_inhabited : Inhabited val := populate VNone.

(** Truth value of an object, as tested by [if], [not], [or]. *)
Definition truthy (v : val) : bool :=
  match v with
  | VNone => false
  | VBool b => b
  | VStr s => negb (bool_decide (s = ""))
  | VList l => negb (bool_decide (l = []))
  end.

(** [a or b]: the first operand when it is true, else the second. *)
Definition py_or (a b : val) : val := if truthy a then a else b.

(** [a == b] *)
Definition py_eq (a b : val) : bool := bool_decide (a = b).

(** [isinstance(v, six.string_types)] *)
Definition is_string (v : val) : bool :=
  match v with VStr _ => true | _ => false end.

(** [isinstance(v, list)] *)
Definition is_list (v : val) : bool :=
  match v with VList _ => true | _ => false end.

(** A Python [dict] with string keys. *)
Abbreviation dict := (gmap string val).

(** [bool(d)]: a mapping is true when it is not empty. *)
Definition dict_truthy (d : dict) : bool := negb (bool_decide (d = ∅)).

(** [k in d] *)
Definition dict_contains (d : dict) (k : string) : bool :=
  bool_decide (is_Some (d !! k)).

(** [d.get(k, default)] *)
Definition dict_get (d : dict) (k : string) (dflt : val) : val :=
  default dflt (d !! k).

(** [k.startswith(p)] *)
Definition startswith (k p : string) : bool := String.prefix p k.
Arguments startswith : simpl never.

(** ** Mappings: [dict] and [MultiDict] *)

(** The items of a [MultiDict], in the order they were added; a key may
    occur more than once. *)
Abbreviation items_t := (list (string * val)).

(** [d.getall(k)]: every value of the key, in order. *)
Fixpoint getall (l : items_t) (k : string) : list val :=
  match l with
  | [] => []
  | kv :: rest =>
      if decide (kv.1 = k) then kv.2 :: getall rest k else getall rest k
  end.

(** [MultiDict.pop(k)]: the first item with the key is deleted and its
    value returned; [None] stands for [KeyError]. *)
Fixpoint remove_first (l : items_t) (k : string) : option (val * items_t) :=
  match l with
  | [] => None
  | kv :: rest =>
      if decide (kv.1 = k) then Some (kv.2, rest)
      else match remove_first rest k with
           | Some (v, rest') => Some (v, kv :: rest')
           | None => None
           end
  end.

(** The mapping objects the module is given or makes: the request's
    [POST] and [params] are [MultiDict]s under Pyramid and plain [dict]s
    on a [DummyRequest]; the schema returns a [dict]. *)
Inductive mapping :=
| Dict (d : dict)
| MultiDict (items : items_t).

(** [k in m]: for a [MultiDict], some item has the key. *)
Definition mapping_contains (m : mapping) (k : string) : bool :=
  match m with
  | Dict d => dict_contains d k
  | MultiDict l => negb (bool_decide (getall l k = []))
  end.

(** [m.get(k, default)]: for a [MultiDict], the last value of the key. *)
Definition mapping_get (m : mapping) (k : string) (dflt : val) : val :=
  match m with
  | Dict d => dict_get d k dflt
  | MultiDict l => default dflt (last (getall l k))
  end.

(** [m.pop(k)]: the value and the mapping as it is afterwards; [None]
    stands for [KeyError].  A [dict] loses the key; a [MultiDict] loses
    the first item with the key. *)
Definition mapping_pop (m : mapping) (k : string) : option (val * mapping) :=
  match m with
  | Dict d =>
      match d !! k with
      | Some v => Some (v, Dict (delete k d))
      | None => None
      end
  | MultiDict l =>
      match remove_first l k with
      | Some (v, l') => Some (v, MultiDict l')
      | None => None
      end
  end.

(** [m.items()] *)
Definition mapping_items (m : mapping) : items_t :=
  match m with
  | Dict d => map_to_list d
  | MultiDict l => l
  end.

(** A mapping as [in] and [get] see it: one value for a key, the last
    one of a [MultiDict]. *)
Definition mapping_view (m : mapping) : dict :=
  match m with
  | Dict d => d
  | MultiDict l => foldl (λ d kv, <[kv.1 := kv.2]> d) ∅ l
  end.

(** ** References and the store of mappings *)

Definition ref := nat.

(** ** Module constants *)

Definition csrf_field : string := "_authentication_token".

(** ** External collaborators *)

(** The session: [get_csrf_token()] returns the token it expects. *)
Record Session := { session_csrf_token : val }.

(** The request, as far as the module reads it.  [POST] and [params] are
    references to the two parameter mappings; [remote_addr] and
    [user_agent] are read with [getattr(request, _, None)]. *)
Module Request.
Record t := {
  method : string;
  POST : ref;
  params : ref;
  session : Session;
  url : string;
  path : string;
  remote_addr : val;
  user_agent : val;
}.
End Request.

(** [class State]: the context object handed to FormEncode. *)
Record State := { state_request : Request.t }.

(** [formencode.Invalid], as far as the module reads it: the message, the
    [error_dict] attribute ([None] or a mapping) and the mapping returned
    by [unpack_errors(True, dict_char, list_char)]. *)
Record Invalid := {
  invalid_msg : string;
  error_dict : option dict;
  unpack_errors : bool → string → string → dict;
}.

(** [if e.error_dict:] *)
Definition error_dict_truthy (e : Invalid) : bool :=
  match error_dict e with
  | None => false
  | Some d => dict_truthy d
  end.

(** ** Exceptions *)

Inductive csrf_failure :=
| MissingToken                         (* 'Missing CSRF token' *)
| BadToken (wanted got : val).       (* 'Bad CSRF token: wanted %r, got %r' *)

Inductive assertion :=
| WrongMethod (expected : option string) (got : string)
    (* 'Expected request method {}; got {} instead' *)
| InvalidForm (errors : dict).
    (* 'form invalid with errors: %r' *)

Inductive exn :=
| HTTPBadRequest (detail : csrf_failure)
| AssertionError (why : assertion)
| FormNotValidated
| FormInvalid (msg : string)
| InvalidExn (e : Invalid)
| KeyError (k : string)
| AttributeError (attr : string)
| TypeError
| BadReference (r : ref).
    (* not a Python exception: a reference that is not in the store *)

(** [FormError.__init__]: with no argument the class's [message] is used. *)
Definition FormError_message (e : exn) : option string :=
  match e with
  | FormNotValidated => Some "Form has not been validated; call validate() first"
  | FormInvalid msg => Some msg
  | _ => None
  end.

Inductive result (A : Type) :=
| Ret (a : A)
| Raise (e : exn).
Arguments Ret {A} a.
Arguments Raise {A} e.

(** The schema: [to_python(params, state)] reads the mapping it is handed
    and returns the converted mapping or raises. *)
Record Schema := { to_python : mapping → State → result dict }.

(** Calls to the collaborators, in the order they are made. *)
Inductive event :=
| EvGetCsrfToken
| EvToPython (params : ref) (content : mapping)
| EvLogError (url : string) (remote_addr user_agent : val)
             (params : mapping) (errors : dict).

(** ** [class Form] *)

Module Form.

(** The attributes set by [__init__], and [_data], which exists only
    once [validate] has assigned it.  [method] is [None] or a string. *)
Record t := {
  request : Request.t;
  schema : Schema;
  method : option string;
  dict_char : string;
  list_char : string;
  multipart : bool;
  is_validated : bool;
  errors : dict;
  state : State;
  _data : option ref;
}.

Definition __init__ (request : Request.t) (schema : Schema)
    (method : option string) : t :=
  {| request := request;
     schema := schema;
     method := method;
     dict_char := ".";
     list_char := "-";
     multipart := true;
     is_validated := false;
     errors := ∅;
     state := {| state_request := request |};
     _data := None |}.

Definition with_is_validated (b : bool) (f : t) : t :=
  {| request := request f; schema := schema f; method := method f;
     dict_char := dict_char f; list_char := list_char f;
     multipart := multipart f; is_validated := b; errors := errors f;
     state := state f; _data := _data f |}.

Definition with_errors (e : dict) (f : t) : t :=
  {| request := request f; schema := schema f; method := method f;
     dict_char := dict_char f; list_char := list_char f;
     multipart := multipart f; is_validated := is_validated f; errors := e;
     state := state f; _data := _data f |}.

Definition with__data (r : ref) (f : t) : t :=
  {| request := request f; schema := schema f; method := method f;
     dict_char := dict_char f; list_char := list_char f;
     multipart := multipart f; is_validated := is_validated f;
     errors := errors f; state := state f; _data := Some r |}.

(** *** The state the methods run in *)

Record st := {
  self : t;                 (* the form object *)
  objects : list mapping;   (* the mappings, by reference *)
  trace : list event;       (* calls made to the collaborators *)
}.

(** The store as [in] and [get] see it: behind each reference, the view
    of the mapping. *)
Definition heap (s : st) : list dict := mapping_view <$> objects s.

Definition M (A : Type) : Type := st → result A * st.

Definition ret {A} (a : A) : M A := λ s, (Ret a, s).
Definition raise {A} (e : exn) : M A := λ s, (Raise e, s).
Definition seq {A B} (m : M A) (k : A → M B) : M B :=
  λ s, match m s with
       | (Ret a, s') => k a s'
       | (Raise e, s') => (Raise e, s')
       end.

Notation "x ← m ; k" := (seq m (λ x, k))
  (at level 20, m at level 100, k at level 200, only parsing).
Notation "m ;; k" := (seq m (λ _, k))
  (at level 100, k at level 200, right associativity, only parsing).

Definition lift {A} (r : result A) : M A := λ s, (r, s).
Definition get_self : M t := λ s, (Ret (self s), s).
Definition modify_self (g : t → t) : M unit :=
  λ s, (Ret tt, {| self := g (self s); objects := objects s; trace := trace s |}).
Definition emit (ev : event) : M unit :=
  λ s, (Ret tt, {| self := self s; objects := objects s; trace := trace s ++ [ev] |}).

(** Reading a mapping through its reference. *)
Definition deref (r : ref) : M mapping :=
  λ s, match objects s !! r with
       | Some m => (Ret m, s)
       | None => (Raise (BadReference r), s)
       end.

(** A new mapping object. *)
Definition alloc (m : mapping) : M ref :=
  λ s, (Ret (length (objects s)),
        {| self := self s; objects := objects s ++ [m]; trace := trace s |}).

(** Overwriting the mapping behind a reference. *)
Definition store (r : ref) (m : mapping) : M unit :=
  λ s, (Ret tt, {| self := self s; objects := <[r := m]> (objects s);
                   trace := trace s |}).

(** [d.copy()]: a new object of the same class with the same items. *)
Definition dict_copy (r : ref) : M ref := m ← deref r; alloc m.

(** [d.pop(k)]: changes the mapping in place, [KeyError] when the key is
    absent. *)
Definition dict_pop (r : ref) (k : string) : M val :=
  m ← deref r;
  match mapping_pop m k with
  | Some (v, m') => store r m';; ret v
  | None => raise (KeyError k)
  end.

(** [request.session.get_csrf_token()] *)
Definition get_csrf_token : M val :=
  f ← get_self;
  emit EvGetCsrfToken;;
  ret (session_csrf_token (Request.session (request f))).

(** *** Properties *)

(** [Form.data] *)
Definition data (f : t) : result ref :=
  if is_validated f then
    match _data f with
    | Some r => Ret r
    | None => Raise (AttributeError "_data")
    end
  else Raise FormNotValidated.

(** [if self.method:] *)
Definition method_truthy (m : option string) : bool :=
  match m with
  | Some s => negb (bool_decide (s = ""))
  | None => false
  end.

(** [Form.method_allowed] *)
Definition method_allowed (f : t) : bool :=
  if method_truthy (method f) then
    bool_decide (Some (Request.method (request f)) = method f)
  else true.

(** *** Methods *)

Definition _get_params : M ref :=
  f ← get_self;
  if bool_decide (method f = Some "POST") then ret (Request.POST (request f))
  else ret (Request.params (request f)).

Definition validate_csrf (params : option ref) : M unit :=
  params ← match params with
           | None => _get_params
           | Some p => ret p
           end;
  d ← deref params;
  if negb (mapping_contains d csrf_field) then
    raise (HTTPBadRequest MissingToken)
  else
    let got_token := mapping_get d csrf_field VNone in
    wanted_token ← get_csrf_token;
    if negb (py_eq got_token wanted_token) then
      raise (HTTPBadRequest (BadToken wanted_token got_token))
    else ret tt.

(** [validate], the lines from [params = self._get_params()] to
    [params.pop(csrf_field)]: the mapping the schema will be given. *)
Definition validate_params (skip_csrf : bool) : M ref :=
  params ← _get_params;
  if negb skip_csrf then
    validate_csrf (Some params);;
    (* Remove CSRF token from params; use a copy so the original
       request params aren't changed. *)
    params ← dict_copy params;
    dict_pop params csrf_field;;
    ret params
  else ret params.

(** [validate], from [self._data = params] to the end. *)
Definition validate_schema (assert_valid : bool) (params : ref) : M bool :=
  f ← get_self;
  let request := request f in
  modify_self (with__data params);;
  content ← deref params;
  emit (EvToPython params content);;
  match to_python (schema f) content (state f) with
  | Ret out => r ← alloc (Dict out); modify_self (with__data r)
  | Raise (InvalidExn e) =>
      if error_dict_truthy e then
        modify_self (with_errors (unpack_errors e true (dict_char f) (list_char f)));;
        f' ← get_self;
        emit (EvLogError (Request.url request)
                         (Request.remote_addr request)
                         (Request.user_agent request)
                         content (errors f'))
      else raise (InvalidExn e)
  | Raise x => raise x
  end;;
  modify_self (with_is_validated true);;
  f' ← get_self;
  let valid := negb (dict_truthy (errors f')) in
  (if assert_valid then
     if valid then ret tt else raise (AssertionError (InvalidForm (errors f')))
   else ret tt);;
  ret valid.

(** [validate], once the cached result and the method are dealt with. *)
Definition validate_run (skip_csrf assert_valid : bool) : M bool :=
  params ← validate_params skip_csrf;
  validate_schema assert_valid params.

Definition validate (skip_csrf assert_valid : bool) : M bool :=
  f ← get_self;
  if is_validated f then ret (negb (dict_truthy (errors f)))
  else if assert_valid then
    if method_allowed f then validate_run skip_csrf assert_valid
    else raise (AssertionError
                  (WrongMethod (method f) (Request.method (request f))))
  else if negb (method_allowed f) then ret false
  else validate_run skip_csrf assert_valid.

(** [assert_valid]: of its keyword arguments, [skip_csrf] is the one
    left to pass on to [validate]. *)
Definition assert_valid (skip_csrf : bool) : M unit :=
  validate skip_csrf true;; ret tt.

(** The items [bind] copies: [(k, v)] with [k] not starting with [_]. *)
Definition bind_items (items : items_t) : list (string * val) :=
  filter (λ kv, negb (startswith kv.1 "_")) items.

(** [setattr(obj, k, v)] on an object seen as its attribute mapping. *)
Definition setattr (obj : dict) (kv : string * val) : dict :=
  <[kv.1 := kv.2]> obj.

Definition bind (obj : dict) : M dict :=
  f ← get_self;
  if negb (is_validated f) then raise FormNotValidated
  else if dict_truthy (errors f) then
    raise (FormInvalid "Form not valid; cannot bind")
  else
    r ← lift (data f);
    d ← deref r;
    ret (foldl setattr obj (bind_items (mapping_items d))).

Definition errors_for (f : t) (field : string) : val :=
  let errors := dict_get (errors f) field (VList []) in
  if is_string errors then VList [errors] else errors.

Definition is_error (f : t) (field : string) : bool :=
  dict_contains (errors f) field.

End Form.

(** ** The tag renderer collaborator *)

(** Keyword arguments passed through to [webhelpers2.html.tags]. *)
Definition attrs_t := list (string * val).

(** A call to one of the builders of [webhelpers2.html.tags], with the
    arguments it receives. *)
Inductive markup :=
| tags_text (name : string) (value : val) (id : option string) (attrs : attrs_t)
| tags_file (name : string) (value : val) (id : option string) (attrs : attrs_t)
| tags_hidden (name : string) (value : val) (id : option string) (attrs : attrs_t)
| tags_radio (name : string) (value checked label : val) (attrs : attrs_t)
| tags_submit (name : option string) (value : val) (id : option string)
              (attrs : attrs_t)
| tags_select (name : string) (selected_values options : val)
              (id : option string) (attrs : attrs_t)
| tags_checkbox (name : string) (value checked label : val)
                (id : option string) (attrs : attrs_t)
| tags_textarea (name : string) (content : val) (id : option string)
                (attrs : attrs_t)
| tags_password (name : string) (value : val) (id : option string)
                (attrs : attrs_t).

(** The value argument of a call, for the builders that take one. *)
Definition markup_value (m : markup) : val :=
  match m with
  | tags_text _ v _ _ | tags_file _ v _ _ | tags_hidden _ v _ _
  | tags_radio _ v _ _ _ | tags_submit _ v _ _ | tags_select _ v _ _ _
  | tags_checkbox _ v _ _ _ _ | tags_textarea _ v _ _
  | tags_password _ v _ _ => v
  end.

(** The checked argument of a call, for [radio] and [checkbox]. *)
Definition markup_checked (m : markup) : option val :=
  match m with
  | tags_radio _ _ c _ _ | tags_checkbox _ _ c _ _ _ => Some c
  | _ => None
  end.

(** ** [class Renderer] *)

Module Renderer.

(** [data], [errors] and [id_prefix] are set by [Renderer.__init__];
    [form] and [csrf_field] are attributes that only
    [FormRenderer.__init__] sets: on another instance reading them is
    an [AttributeError]. *)
Record t := {
  data : ref;
  errors : dict;
  id_prefix : option string;
  form : option Form.t;
  csrf_field : option string;
}.

Definition __init__ (data : ref) (errors : dict) (id_prefix : option string) : t :=
  {| data := data; errors := errors; id_prefix := id_prefix;
     form := None; csrf_field := None |}.

Definition rbind {A B} (m : result A) (k : A → result B) : result B :=
  match m with
  | Ret a => k a
  | Raise e => Raise e
  end.

Notation "x ← m ; k" := (rbind m (λ x, k))
  (at level 20, m at level 100, k at level 200, only parsing).

(** [self.data.get(name, default)]; the store [h] holds the mapping.
    [name] is a string or [None], which is never a key. *)
Definition value (h : list dict) (r : t) (name : option string)
    (default : val) : result val :=
  match h !! data r with
  | Some d =>
      Ret (match name with
           | Some n => dict_get d n default
           | None => default
           end)
  | None => Raise (BadReference (data r))
  end.

(** [if self.id_prefix:] *)
Definition prefix_truthy (p : option string) : bool :=
  match p with
  | Some s => negb (bool_decide (s = ""))
  | None => false
  end.

Definition _get_id (r : t) (id name : option string) : result (option string) :=
  match id with
  | Some i => Ret (Some i)
  | None =>
      if prefix_truthy (id_prefix r) then
        match id_prefix r, name with
        | Some p, Some n => Ret (Some (String.append p n))
        | _, _ => Raise TypeError
        end
      else Ret name
  end.

Definition text (h : list dict) (r : t) (name : string) (value : val)
    (id : option string) (attrs : attrs_t) : result markup :=
  v ← Renderer.value h r (Some name) value;
  i ← _get_id r id (Some name);
  Ret (tags_text name v i attrs).

Definition file (h : list dict) (r : t) (name : string) (value : val)
    (id : option string) (attrs : attrs_t) : result markup :=
  v ← Renderer.value h r (Some name) value;
  i ← _get_id r id (Some name);
  Ret (tags_file name v i attrs).

Definition hidden (h : list dict) (r : t) (name : string) (value : val)
    (id : option string) (attrs : attrs_t) : result markup :=
  value ← (if bool_decide (value = VNone)
           then Renderer.value h r (Some name) VNone
           else Ret value);
  i ← _get_id r id (Some name);
  Ret (tags_hidden name value i attrs).

Definition radio (h : list dict) (r : t) (name : string) (value : val)
    (checked : val) (label : val) (attrs : attrs_t) : result markup :=
  stored ← Renderer.value h r (Some name) VNone;
  let checked := py_or (VBool (py_eq stored value)) checked in
  Ret (tags_radio name value checked label attrs).

Definition submit (h : list dict) (r : t) (name : option string)
    (value : val) (id : option string) (attrs : attrs_t) : result markup :=
  v ← Renderer.value h r name value;
  i ← _get_id r id name;
  Ret (tags_submit name v i attrs).

Definition select (h : list dict) (r : t) (name : string)
    (selected_values options : val) (id : option string)
    (attrs : attrs_t) : result markup :=
  v ← Renderer.value h r (Some name) selected_values;
  let v := if negb (is_list v) then VList [v] else v in
  i ← _get_id r id (Some name);
  Ret (tags_select name v options i attrs).

Definition checkbox (h : list dict) (r : t) (name : string) (value : val)
    (checked : val) (label : val) (id : option string)
    (attrs : attrs_t) : result markup :=
  c ← Renderer.value h r (Some name) checked;
  i ← _get_id r id (Some name);
  Ret (tags_checkbox name value c label i attrs).

Definition textarea (h : list dict) (r : t) (name : string) (content : val)
    (id : option string) (attrs : attrs_t) : result markup :=
  v ← Renderer.value h r (Some name) content;
  i ← _get_id r id (Some name);
  Ret (tags_textarea name v i attrs).

Definition password (h : list dict) (r : t) (name : string) (value : val)
    (id : option string) (attrs : attrs_t) : result markup :=
  v ← Renderer.value h r (Some name) value;
  i ← _get_id r id (Some name);
  Ret (tags_password name v i attrs).

Definition is_error (r : t) (name : string) : bool :=
  dict_contains (errors r) name.

(** [return self.form.errors_for(name)] *)
Definition errors_for (r : t) (name : string) : result val :=
  match form r with
  | Some f => Ret (Form.errors_for f name)
  | None => Raise (AttributeError "form")
  end.

End Renderer.

(** ** [class FormRenderer(Renderer)] *)

Module FormRenderer.

(** [form.data] is read before [Renderer.__init__] runs; when it raises
    no renderer comes into being. *)
Definition __init__ (form : Form.t) (csrf_field : string)
    (id_prefix : option string) : result Renderer.t :=
  match Form.data form with
  | Ret d =>
      Ret {| Renderer.data := d;
             Renderer.errors := Form.errors form;
             Renderer.id_prefix := id_prefix;
             Renderer.form := Some form;
             Renderer.csrf_field := Some csrf_field |}
  | Raise e => Raise e
  end.

End FormRenderer.

(** ** Definitions used to state the properties *)

(** The mapping [validate_csrf] checks: the one it is given, or the one
    [_get_params] selects when it is given [None]. *)
Definition checked_params (f : Form.t) (params : option ref) : ref :=
  match params with
  | Some p => p
  | None =>
      if bool_decide (Form.method f = Some "POST")
      then Request.POST (Form.request f)
      else Request.params (Form.request f)
  end.

(** The token [request.session.get_csrf_token()] returns. *)
Definition wanted_token (f : Form.t) : val :=
  session_csrf_token (Request.session (Form.request f)).

(** A mapping after [pop(csrf_field)]. *)
Definition popped (m : mapping) : mapping :=
  match mapping_pop m csrf_field with
  | Some (_, m') => m'
  | None => m
  end.

(** The mapping the schema is given when the request's parameters are
    [m]: [m] itself when the CSRF check is skipped, else the copy after
    [pop(csrf_field)]. *)
Definition schema_params (skip_csrf : bool) (m : mapping) : mapping :=
  if skip_csrf then m else popped m.

(** *** Forms as the class makes them *)

(** The public calls on a form. *)
Inductive call :=
| CallValidate (skip_csrf assert_valid : bool)
| CallAssertValid (skip_csrf : bool)
| CallValidateCsrf (params : option ref)
| CallBind (obj : dict).

(** The state a call leaves behind, whether it returns or raises. *)
Definition after (c : call) (s : Form.st) : Form.st :=
  match c with
  | CallValidate skip_csrf assert_valid =>
      (Form.validate skip_csrf assert_valid s).2
  | CallAssertValid skip_csrf => (Form.assert_valid skip_csrf s).2
  | CallValidateCsrf params => (Form.validate_csrf params s).2
  | CallBind obj => (Form.bind obj s).2
  end.

(** A form is built by [Form.__init__] and changed only by its methods. *)
Inductive reachable : Form.st → Prop :=
| reachable_init request schema method h tr :
    reachable {| Form.self := Form.__init__ request schema method;
                 Form.objects := h; Form.trace := tr |}
| reachable_call s c :
    reachable s → reachable (after c s).

(** The events the schema engine is behind. *)
Definition is_to_python (ev : event) : bool :=
  match ev with EvToPython _ _ => true | _ => false end.

(** The effective value of a control as the specification words it: the
    explicitly passed value when one is given, and only otherwise the
    value looked up with [value(name)]. *)
Definition spec_effective_value (explicit stored : val) : val :=
  if bool_decide (explicit = VNone) then stored else explicit.

(** The checked state as the specification words it: true when the
    stored value equals the control's value, else the explicit flag. *)
Definition spec_checked (stored value checked : val) : val :=
  py_or (VBool (py_eq stored value)) checked.

(** [errors_for] as the specification words it for a renderer: as in
    [Form], read from the renderer's own [errors]. *)
Definition spec_errors_for (r : Renderer.t) (name : string) : val :=
  let errors := dict_get (Renderer.errors r) name (VList []) in
  if is_string errors then VList [errors] else errors.

(** Unfolding the monad of [Form]. *)
Ltac unfold_M :=
  unfold Form.validate, Form.validate_run, Form.validate_params,
    Form.validate_schema, Form.validate_csrf, Form.bind,
    Form.assert_valid, Form._get_params, Form.get_csrf_token,
    Form.dict_copy, Form.dict_pop, Form.seq, Form.ret, Form.raise,
    Form.lift, Form.get_self, Form.modify_self, Form.emit, Form.deref,
    Form.alloc, Form.store in *.

(** ** A sample request and schema *)

Module Sample.

Definition token : val := VStr "T".

(** A POST request whose body is mapping 0 and whose combined
    parameters are mapping 1. *)
Definition post_request : Request.t :=
  {| Request.method := "POST"; Request.POST := 0; Request.params := 1;
     Request.session := {| session_csrf_token := token |};
     Request.url := "http://example.com/signup";
     Request.path := "/signup";
     Request.remote_addr := VStr "127.0.0.1";
     Request.user_agent := VNone |}.

Definition get_request : Request.t :=
  {| Request.method := "GET"; Request.POST := 0; Request.params := 1;
     Request.session := {| session_csrf_token := token |};
     Request.url := "http://example.com/signup";
     Request.path := "/signup";
     Request.remote_addr := VStr "127.0.0.1";
     Request.user_agent := VNone |}.

Definition missing_name : Invalid :=
  {| invalid_msg := "name: Missing value";
     error_dict := Some {[ "name" := VStr "Missing value" ]};
     unpack_errors := λ _ _ _, {[ "name" := VStr "Missing value" ]} |}.

Definition not_a_mapping : Invalid :=
  {| invalid_msg := "Please provide a mapping";
     error_dict := None;
     unpack_errors := λ _ _ _, ∅ |}.

(** A schema that requires [name] to be a non-empty string. *)
Definition name_schema : Schema :=
  {| to_python := λ d _,
       match mapping_view d !! "name" with
       | Some (VStr n) =>
           if bool_decide (n = "") then Raise (InvalidExn missing_name)
           else Ret {[ "name" := VStr n ]}
       | _ => Raise (InvalidExn missing_name)
       end |}.

(** A schema whose failure carries no error mapping. *)
Definition broken_schema : Schema :=
  {| to_python := λ _ _, Raise (InvalidExn not_a_mapping) |}.

Definition good_params : dict :=
  {[ "name" := VStr "Alice"; csrf_field := token ]}.
Definition nameless_params : dict := {[ csrf_field := token ]}.
Definition tokenless_params : dict := {[ "name" := VStr "Alice" ]}.
Definition forged_params : dict :=
  {[ "name" := VStr "Alice"; csrf_field := VStr "X" ]}.

(** A body in which the CSRF field comes twice: a forged value first,
    the session's token last. *)
Definition repeated_token_items : items_t :=
  [(csrf_field, VStr "X"); ("name", VStr "Alice"); (csrf_field, token)].

(** A fresh form over [request] and [schema], with both parameter
    mappings of the request being [m]. *)
Definition fresh_on (request : Request.t) (schema : Schema)
    (method : option string) (m : mapping) : Form.st :=
  {| Form.self := Form.__init__ request schema method;
     Form.objects := [m; m];
     Form.trace := [] |}.

(** The same over plain dictionaries, as on a [DummyRequest]. *)
Definition fresh (request : Request.t) (schema : Schema)
    (method : option string) (d : dict) : Form.st :=
  fresh_on request schema method (Dict d).

(** A POST whose body repeats the CSRF field. *)
Definition repeated_token : Form.st :=
  fresh_on post_request name_schema (Some "POST")
    (MultiDict repeated_token_items).

Definition good : Form.st := fresh post_request name_schema (Some "POST") good_params.
Definition nameless : Form.st :=
  fresh post_request name_schema (Some "POST") nameless_params.
Definition broken : Form.st :=
  fresh post_request broken_schema (Some "POST") good_params.
Definition wrong_method : Form.st :=
  fresh get_request name_schema (Some "POST") good_params.

(** A schema that returns the parameters as they are. *)
Definition passthrough_schema : Schema :=
  {| to_python := λ d _, Ret (mapping_view d) |}.

(** A form validated with the CSRF check skipped: its data still hold
    the CSRF field. *)
Definition validated : Form.st :=
  (Form.validate true false
     (fresh post_request passthrough_schema (Some "POST") good_params)).2.

(** A plain renderer over the snapshot [{"name": "Alice", "color":
    "red"}] with an error for [name]. *)
Definition snapshot : dict := {[ "name" := VStr "Alice"; "color" := VStr "red" ]}.
Definition store : list dict := [snapshot].
Definition renderer : Renderer.t :=
  Renderer.__init__ 0 {[ "name" := VList [VStr "Missing value"] ]} None.

End Sample.

(** * Properties *)

(** ** Mappings *)

Lemma last_cons_default {A} (x : A) (l : list A) :
  last (x :: l) = Some (default x (last l)).
Proof. revert x. induction l as [|y l IH]; intros x; [done|]. by rewrite last_cons_cons, IH. Qed.

(** Inserting the items in order leaves, for each key, its last value. *)
Lemma foldl_insert_lookup (l : items_t) (d : dict) (k : string) :
  foldl (λ d kv, <[kv.1 := kv.2]> d) d l !! k =
    match last (getall l k) with
    | Some v => Some v
    | None => d !! k
    end.
Proof.
  revert d. induction l as [|[k0 v0] l IH]; intros d; simpl; [done|].
  rewrite IH. destruct (decide (k0 = k)) as [->|Hne].
  - rewrite last_cons_default, lookup_insert_eq.
    by destruct (last (getall l k)).
  - by rewrite lookup_insert_ne.
Qed.

Lemma mapping_view_lookup_multi (l : items_t) (k : string) :
  mapping_view (MultiDict l) !! k = last (getall l k).
Proof.
  simpl. rewrite foldl_insert_lookup, lookup_empty.
  by destruct (last (getall l k)).
Qed.

(** [in] and [get] agree with the view. *)
Lemma mapping_contains_view (m : mapping) (k : string) :
  mapping_contains m k = dict_contains (mapping_view m) k.
Proof.
  destruct m as [d|l]; [done|]. unfold mapping_contains, dict_contains.
  rewrite mapping_view_lookup_multi.
  destruct (getall l k) as [|v vs] eqn:Hg; [done|].
  rewrite last_cons_default. rewrite bool_decide_false by done.
  by rewrite bool_decide_true by eauto.
Qed.

Lemma mapping_get_view (m : mapping) (k : string) (dflt : val) :
  mapping_get m k dflt = dict_get (mapping_view m) k dflt.
Proof.
  destruct m as [d|l]; [done|]. unfold mapping_get, dict_get.
  by rewrite mapping_view_lookup_multi.
Qed.

Lemma heap_lookup (s : Form.st) (p : ref) (d : dict) :
  Form.heap s !! p = Some d ↔
  ∃ m, Form.objects s !! p = Some m ∧ mapping_view m = d.
Proof.
  unfold Form.heap. rewrite list_lookup_fmap, fmap_Some.
  split; intros (m & Hm & Hv); by exists m.
Qed.

(** ** CSRF check *)

Lemma validate_csrf_eval (s : Form.st) (params : option ref) (d : dict) :
  Form.heap s !! checked_params (Form.self s) params = Some d →
  (Form.validate_csrf params s).1 =
    match d !! csrf_field with
    | None => Raise (HTTPBadRequest MissingToken)
    | Some v =>
        if decide (v = wanted_token (Form.self s)) then Ret tt
        else Raise (HTTPBadRequest (BadToken (wanted_token (Form.self s)) v))
    end.
Proof.
  intros Hd.
  assert (Hgo : ∀ p, Form.heap s !! p = Some d →
            (Form.validate_csrf (Some p) s).1 =
              match d !! csrf_field with
              | None => Raise (HTTPBadRequest MissingToken)
              | Some v =>
                  if decide (v = wanted_token (Form.self s)) then Ret tt
                  else Raise (HTTPBadRequest
                                (BadToken (wanted_token (Form.self s)) v))
              end).
  { intros p Hp. apply heap_lookup in Hp as (m & Hp & Hm).
    unfold_M. unfold wanted_token. simpl. rewrite Hp. simpl.
    rewrite mapping_contains_view, mapping_get_view, Hm.
    unfold dict_contains, dict_get, py_eq.
    destruct (d !! csrf_field) as [v|] eqn:Hv; simpl.
    - destruct (decide (v = _)) as [Heq|Hne].
      + rewrite bool_decide_true by done. done.
      + rewrite bool_decide_false by done. done.
    - done. }
  destruct params as [p|]; [by apply Hgo|].
  rewrite <- (Hgo _ Hd). unfold checked_params.
  unfold Form.validate_csrf at 1, Form._get_params, Form.seq at 1 2,
    Form.get_self, Form.ret.
  unfold Form.validate_csrf, Form.seq at 3, Form.ret. simpl.
  by case_bool_decide.
Qed.

(** C1: [validate_csrf] raises [HTTPBadRequest] exactly when the CSRF
    field is absent from the parameters it checks, or present with a
    value different from the token of the request's session; when the
    field holds that token it returns normally. *)
Theorem validate_csrf_raises_iff (s : Form.st) (params : option ref) (d : dict) :
  Form.heap s !! checked_params (Form.self s) params = Some d →
  ((∃ detail, (Form.validate_csrf params s).1 = Raise (HTTPBadRequest detail))
   ↔ (d !! csrf_field = None
      ∨ ∃ v, d !! csrf_field = Some v ∧ v ≠ wanted_token (Form.self s)))
  ∧ ((Form.validate_csrf params s).1 = Ret tt
     ↔ d !! csrf_field = Some (wanted_token (Form.self s))).
Proof.
  intros Hd. rewrite (validate_csrf_eval s params d Hd).
  destruct (d !! csrf_field) as [v|].
  - destruct (decide (v = wanted_token (Form.self s))) as [->|Hne].
    + split; split; try done.
      * intros [? ?]; done.
      * intros [?|(v & Hv & Hne)]; [done|]. by simplify_eq.
    + split; split.
      * intros _. right. eauto.
      * intros _. eauto.
      * done.
      * intros ?; simplify_eq.
  - split; split; try done.
    + intros _. by left.
    + intros _. eauto.
Qed.

Lemma validate_csrf_raises_iff_witness :
  (Form.validate_csrf None Sample.good).1 = Ret tt
  ∧ ∃ detail,
      (Form.validate_csrf None
         (Sample.fresh Sample.post_request Sample.name_schema (Some "POST")
            Sample.tokenless_params)).1 = Raise (HTTPBadRequest detail).
Proof.
  split.
  - apply (validate_csrf_raises_iff Sample.good None Sample.good_params);
      reflexivity.
  - apply (validate_csrf_raises_iff
             (Sample.fresh Sample.post_request Sample.name_schema
                (Some "POST") Sample.tokenless_params)
             None Sample.tokenless_params); [reflexivity|].
    left. reflexivity.
Defined.

(** ** Idempotence of [validate] *)

Lemma validate_cached (s : Form.st) (skip_csrf assert_valid : bool) :
  Form.is_validated (Form.self s) = true →
  Form.validate skip_csrf assert_valid s =
    (Ret (negb (dict_truthy (Form.errors (Form.self s)))), s).
Proof. intros Hv. unfold_M. by rewrite Hv. Qed.

Lemma validate_run_returns (s s' : Form.st) (skip_csrf assert_valid b : bool) :
  Form.validate_run skip_csrf assert_valid s = (Ret b, s') →
  Form.is_validated (Form.self s') = true
  ∧ b = negb (dict_truthy (Form.errors (Form.self s'))).
Proof.
  unfold_M. intros H.
  repeat (case_match; simplify_eq/=; try done).
Qed.

(** C2: once [validate] has run and left [is_validated] set, any further
    call returns [not errors] and leaves the whole state as it is: the
    form (data and errors included), the store, and the trace of calls to
    the session and the schema; a boolean returned by the first call is
    that same boolean. *)
Theorem validate_idempotent (s0 s1 : Form.st) (skip_csrf assert_valid : bool)
    (r : result bool) (skip_csrf' assert_valid' : bool) :
  Form.validate skip_csrf assert_valid s0 = (r, s1) →
  Form.is_validated (Form.self s1) = true →
  Form.validate skip_csrf' assert_valid' s1 =
    (Ret (negb (dict_truthy (Form.errors (Form.self s1)))), s1)
  ∧ (∀ b, r = Ret b → Form.validate skip_csrf' assert_valid' s1 = (Ret b, s1)).
Proof.
  intros Hfirst Hv. rewrite validate_cached by done. split; [done|].
  intros b ->. do 2 f_equal.
  destruct (Form.is_validated (Form.self s0)) eqn:Hv0.
  - rewrite validate_cached in Hfirst by done. by simplify_eq.
  - unfold Form.validate, Form.seq, Form.get_self in Hfirst.
    rewrite Hv0 in Hfirst.
    destruct assert_valid, (Form.method_allowed (Form.self s0));
      simpl in Hfirst;
      try (by apply validate_run_returns in Hfirst as [_ ->]);
      unfold Form.raise, Form.ret in Hfirst; simplify_eq.
    congruence.
Qed.

Lemma validate_idempotent_witness :
  let s1 := (Form.validate false false Sample.nameless).2 in
  Form.validate false false Sample.nameless = (Ret false, s1)
  ∧ Form.validate true true s1 = (Ret false, s1).
Proof.
  intros s1.
  assert (H0 : Form.validate false false Sample.nameless = (Ret false, s1))
    by (by vm_compute).
  split; [exact H0|].
  refine (proj2 (validate_idempotent Sample.nameless s1 false false
                   (Ret false) true true H0 _) false eq_refl).
  by vm_compute.
Defined.

(** ** The steps of [validate] *)

Lemma store_fresh {A} (h : list A) (d d' : A) :
  <[length h := d']> (h ++ [d]) = h ++ [d'].
Proof.
  rewrite insert_app_r_alt by lia. by rewrite Nat.sub_diag.
Qed.

Lemma lookup_fresh {A} (h : list A) (d : A) :
  (h ++ [d]) !! length h = Some d.
Proof. by rewrite list_lookup_middle. Qed.

Lemma remove_first_is_Some (l : items_t) (k : string) :
  getall l k ≠ [] → is_Some (remove_first l k).
Proof.
  induction l as [|[k0 v0] l IH]; simpl; [done|].
  destruct (decide (k0 = k)); [by eauto|].
  intros [[v l'] ->]%IH. eauto.
Qed.

(** [pop] succeeds on a key the mapping contains. *)
Lemma mapping_pop_contains (m : mapping) (k : string) :
  mapping_contains m k = true →
  ∃ v m', mapping_pop m k = Some (v, m').
Proof.
  destruct m as [d|l]; simpl.
  - unfold dict_contains. intros [v Hv]%bool_decide_eq_true.
    rewrite Hv. eauto.
  - intros Hg%negb_true_iff%bool_decide_eq_false.
    destruct (remove_first_is_Some l k Hg) as [[v l'] ->]. eauto.
Qed.

Lemma validate_params_skip (s : Form.st) :
  Form.validate_params true s = (Ret (checked_params (Form.self s) None), s).
Proof. unfold_M. unfold checked_params. simpl. by case_bool_decide. Qed.

(** With a good token the schema is given a new mapping, the copy after
    [pop(csrf_field)]; the session was asked for its token once. *)
Lemma validate_params_checked (s : Form.st) (m : mapping) :
  Form.objects s !! checked_params (Form.self s) None = Some m →
  mapping_view m !! csrf_field = Some (wanted_token (Form.self s)) →
  Form.validate_params false s =
    (Ret (length (Form.objects s)),
     {| Form.self := Form.self s;
        Form.objects := Form.objects s ++ [popped m];
        Form.trace := Form.trace s ++ [EvGetCsrfToken] |}).
Proof.
  intros Hd Htok.
  assert (Hp : Form._get_params s = (Ret (checked_params (Form.self s) None), s)).
  { unfold_M. unfold checked_params. simpl. by case_bool_decide. }
  assert (Hin : mapping_contains m csrf_field = true).
  { rewrite mapping_contains_view. unfold dict_contains.
    rewrite bool_decide_true; [done|]. rewrite Htok. eauto. }
  destruct (mapping_pop_contains m csrf_field Hin) as (v & m' & Hpop).
  unfold Form.validate_params, Form.seq at 1. rewrite Hp. simpl negb. cbv iota.
  clear Hp.
  unfold_M. unfold wanted_token, checked_params, popped in *. simpl.
  rewrite Hd. simpl. rewrite Hin, mapping_get_view. simpl.
  unfold dict_get, py_eq. rewrite Htok. simpl.
  rewrite bool_decide_true by done. simpl. rewrite Hd. simpl.
  rewrite lookup_fresh. simpl. rewrite Hpop. simpl. by rewrite store_fresh.
Qed.

(** A failed CSRF check ends [validate_params] with the client error;
    the form and the store are as before. *)
Lemma validate_params_rejected (s : Form.st) (m : mapping) :
  Form.objects s !! checked_params (Form.self s) None = Some m →
  mapping_view m !! csrf_field ≠ Some (wanted_token (Form.self s)) →
  ∃ detail tr,
    Form.validate_params false s =
      (Raise (HTTPBadRequest detail),
       {| Form.self := Form.self s; Form.objects := Form.objects s;
          Form.trace := tr |}).
Proof.
  intros Hd Htok.
  assert (Hp : Form._get_params s = (Ret (checked_params (Form.self s) None), s)).
  { unfold_M. unfold checked_params. simpl. by case_bool_decide. }
  unfold Form.validate_params, Form.seq at 1. rewrite Hp. simpl negb. cbv iota.
  unfold_M. unfold wanted_token in *. simpl in *. rewrite Hd. simpl.
  rewrite mapping_contains_view, mapping_get_view.
  unfold dict_contains, dict_get, py_eq.
  destruct (mapping_view m !! csrf_field) as [v|] eqn:Hv; simpl.
  - rewrite bool_decide_false by congruence. simpl. eauto.
  - destruct s; simpl. eauto.
Qed.

(** No step of [validate_params] writes to a mapping that was already in
    the store, and none touches the form. *)
Lemma validate_params_frame (s s' : Form.st) (skip_csrf : bool) (r : result ref) :
  Form.validate_params skip_csrf s = (r, s') →
  Form.self s' = Form.self s ∧ ∃ ext, Form.objects s' = Form.objects s ++ ext.
Proof.
  unfold_M. intros H.
  repeat (case_match; simplify_eq/=);
    try (split; [done|]; by exists []; rewrite app_nil_r);
    try (split; [done|]; eexists; rewrite store_fresh; done);
    try (split; [done|]; eexists; done).
Qed.

Lemma validate_dispatch (s : Form.st) (skip_csrf assert_valid : bool) :
  Form.is_validated (Form.self s) = false →
  Form.method_allowed (Form.self s) = true →
  Form.validate skip_csrf assert_valid s =
    Form.validate_run skip_csrf assert_valid s.
Proof.
  intros Hv Hm. unfold Form.validate, Form.seq at 1, Form.get_self.
  rewrite Hv, Hm. by destruct assert_valid.
Qed.

(** What [validate_schema] does when the schema raises [Invalid]. *)
Lemma validate_schema_invalid (s : Form.st) (assert_valid : bool) (p : ref)
    (content : mapping) (e : Invalid) :
  Form.objects s !! p = Some content →
  to_python (Form.schema (Form.self s)) content (Form.state (Form.self s))
    = Raise (InvalidExn e) →
  let f := Form.self s in
  let errs := unpack_errors e true (Form.dict_char f) (Form.list_char f) in
  Form.validate_schema assert_valid p s =
    if error_dict_truthy e then
      (if assert_valid && dict_truthy errs
       then Raise (AssertionError (InvalidForm errs))
       else Ret (negb (dict_truthy errs)),
       {| Form.self :=
            Form.with_is_validated true
              (Form.with_errors errs (Form.with__data p f));
          Form.objects := Form.objects s;
          Form.trace :=
            Form.trace s ++ [EvToPython p content] ++
              [EvLogError (Request.url (Form.request f))
                 (Request.remote_addr (Form.request f))
                 (Request.user_agent (Form.request f)) content errs] |})
    else
      (Raise (InvalidExn e),
       {| Form.self := Form.with__data p f;
          Form.objects := Form.objects s;
          Form.trace := Form.trace s ++ [EvToPython p content] |}).
Proof.
  intros Hp He f errs. unfold_M. simpl. rewrite Hp. simpl. rewrite He.
  destruct (error_dict_truthy e); simpl; [|done].
  fold f. fold errs.
  destruct assert_valid, (dict_truthy errs); simpl; by rewrite <- app_assoc.
Qed.

(** What [validate_schema] does when the schema accepts the parameters. *)
Lemma validate_schema_valid (s : Form.st) (assert_valid : bool) (p : ref)
    (content : mapping) (out : dict) :
  Form.objects s !! p = Some content →
  to_python (Form.schema (Form.self s)) content (Form.state (Form.self s))
    = Ret out →
  let f := Form.self s in
  Form.validate_schema assert_valid p s =
    (if assert_valid && dict_truthy (Form.errors f)
     then Raise (AssertionError (InvalidForm (Form.errors f)))
     else Ret (negb (dict_truthy (Form.errors f))),
     {| Form.self :=
          Form.with_is_validated true
            (Form.with__data (length (Form.objects s)) (Form.with__data p f));
        Form.objects := Form.objects s ++ [Dict out];
        Form.trace := Form.trace s ++ [EvToPython p content] |}).
Proof.
  intros Hp He f. unfold_M. simpl. rewrite Hp. simpl. rewrite He. simpl.
  fold f. by destruct assert_valid, (dict_truthy (Form.errors f)).
Qed.

Lemma validate_schema_frame (s s' : Form.st) (assert_valid : bool) (p : ref)
    (r : result bool) :
  Form.validate_schema assert_valid p s = (r, s') →
  ∃ ext, Form.objects s' = Form.objects s ++ ext.
Proof.
  unfold_M. intros H.
  repeat (case_match; simplify_eq/=);
    try (by exists []; rewrite app_nil_r); by eexists.
Qed.

(** ** Failures of the schema *)

(** C3, as the code has it: when the schema raises [Invalid] with a
    structured error mapping, [validate] stores the unpacked mapping in
    [errors] and marks the form validated; it then returns [not errors]
    when [assert_valid] is false (so [False] for a non-empty unpacked
    mapping) and raises [AssertionError] when [assert_valid] is true and
    the unpacked mapping is non-empty.  When the [Invalid] carries no
    error mapping, that same exception is raised again and neither
    [errors] nor [is_validated] changes. *)
Theorem validate_schema_failure (s : Form.st) (skip_csrf assert_valid : bool)
    (d : mapping) (e : Invalid) :
  Form.is_validated (Form.self s) = false →
  Form.method_allowed (Form.self s) = true →
  Form.objects s !! checked_params (Form.self s) None = Some d →
  (skip_csrf = false →
   mapping_view d !! csrf_field = Some (wanted_token (Form.self s))) →
  to_python (Form.schema (Form.self s)) (schema_params skip_csrf d)
    (Form.state (Form.self s)) = Raise (InvalidExn e) →
  let errs :=
    unpack_errors e true (Form.dict_char (Form.self s))
      (Form.list_char (Form.self s)) in
  let r := (Form.validate skip_csrf assert_valid s).1 in
  let s' := (Form.validate skip_csrf assert_valid s).2 in
  (error_dict_truthy e = true →
     Form.errors (Form.self s') = errs
     ∧ Form.is_validated (Form.self s') = true
     ∧ (assert_valid = false → r = Ret (negb (dict_truthy errs)))
     ∧ (dict_truthy errs = true →
          r = if assert_valid then Raise (AssertionError (InvalidForm errs))
              else Ret false))
  ∧ (error_dict_truthy e = false →
       r = Raise (InvalidExn e)
       ∧ Form.is_validated (Form.self s') = false
       ∧ Form.errors (Form.self s') = Form.errors (Form.self s)).
Proof.
  intros Hv Hm Hd Htok He errs r s'. subst r s'.
  rewrite validate_dispatch by done.
  unfold Form.validate_run, Form.seq. destruct skip_csrf; simpl in He.
  - rewrite validate_params_skip.
    rewrite (validate_schema_invalid s assert_valid _ d e Hd He).
    fold errs. destruct (error_dict_truthy e); simpl.
    + split; [intros _|done]. repeat split; [by intros ->|].
      intros ->. by destruct assert_valid.
    + split; [done|intros _]. by rewrite Hv.
  - rewrite (validate_params_checked s d Hd (Htok eq_refl)).
    match goal with
    | |- context [Form.validate_schema _ _ ?s1] =>
        rewrite (validate_schema_invalid s1 assert_valid _
                   (popped d) e (lookup_fresh _ _) He)
    end.
    simpl. fold errs. destruct (error_dict_truthy e); simpl.
    + split; [intros _|done]. repeat split; [by intros ->|].
      intros ->. by destruct assert_valid.
    + split; [done|intros _]. by rewrite Hv.
Qed.

Lemma validate_schema_failure_witness :
  (Form.validate false false Sample.nameless).1 = Ret false
  ∧ (Form.validate false true Sample.broken).1
      = Raise (InvalidExn Sample.not_a_mapping).
Proof.
  split.
  - refine (proj1 (proj2 (proj2 (proj1
      (validate_schema_failure Sample.nameless false false
         (Dict Sample.nameless_params) Sample.missing_name _ _ _ _ _) _))) _);
      by vm_compute.
  - refine (proj1 (proj2
      (validate_schema_failure Sample.broken false true
         (Dict Sample.good_params) Sample.not_a_mapping _ _ _ _ _) _));
      by vm_compute.
Defined.

(** The schema fails with a structured error mapping and [validate],
    called with [assert_valid] true, raises instead of returning
    [False]. *)
Lemma validate_structured_failure_raises :
  to_python (Form.schema (Form.self Sample.nameless))
    (schema_params false (Dict Sample.nameless_params))
    (Form.state (Form.self Sample.nameless))
    = Raise (InvalidExn Sample.missing_name)
  ∧ error_dict_truthy Sample.missing_name = true
  ∧ (Form.validate false true Sample.nameless).1
      = Raise (AssertionError (InvalidForm {[ "name" := VStr "Missing value" ]}))
  ∧ (Form.validate false true Sample.nameless).1 ≠ Ret false.
Proof. repeat split; try (by vm_compute). Qed.

(** ** Request method *)

Lemma validate_run_self (s : Form.st) (skip_csrf assert_valid : bool) :
  let f' := Form.self (Form.validate_run skip_csrf assert_valid s).2 in
  Form.request f' = Form.request (Form.self s)
  ∧ Form.method f' = Form.method (Form.self s).
Proof.
  unfold_M. simpl.
  repeat (case_match; simplify_eq/=); by split.
Qed.

Lemma validate_self (s : Form.st) (skip_csrf assert_valid : bool) :
  let f' := Form.self (Form.validate skip_csrf assert_valid s).2 in
  Form.request f' = Form.request (Form.self s)
  ∧ Form.method f' = Form.method (Form.self s)
  ∧ (Form.is_validated f' = true →
     Form.is_validated (Form.self s) = true
     ∨ Form.method_allowed (Form.self s) = true).
Proof.
  destruct (Form.is_validated (Form.self s)) eqn:Hv.
  { rewrite validate_cached by done. simpl. auto. }
  destruct (Form.method_allowed (Form.self s)) eqn:Hm.
  { rewrite validate_dispatch by done.
    destruct (validate_run_self s skip_csrf assert_valid). auto. }
  unfold Form.validate, Form.seq, Form.get_self, Form.ret, Form.raise.
  rewrite Hv, Hm. destruct assert_valid; simpl; rewrite Hv; auto.
Qed.

Lemma validate_csrf_self (s : Form.st) (params : option ref) :
  Form.self (Form.validate_csrf params s).2 = Form.self s.
Proof. unfold_M. simpl. by repeat (case_match; simplify_eq/=). Qed.

Lemma bind_self (s : Form.st) (obj : dict) :
  Form.self (Form.bind obj s).2 = Form.self s.
Proof.
  unfold_M. unfold Form.data. simpl.
  by repeat (case_match; simplify_eq/=).
Qed.

Lemma method_allowed_ext (f f' : Form.t) :
  Form.request f' = Form.request f →
  Form.method f' = Form.method f →
  Form.method_allowed f' = Form.method_allowed f.
Proof. unfold Form.method_allowed. by intros -> ->. Qed.

(** A validated form was submitted with an allowed method. *)
Lemma reachable_validated_allowed (s : Form.st) :
  reachable s →
  Form.is_validated (Form.self s) = true →
  Form.method_allowed (Form.self s) = true.
Proof.
  induction 1 as [| s c Hs IH]; [done|].
  destruct c as [skip av|skip|params|obj]; simpl.
  - destruct (validate_self s skip av) as (Hr & Hm & Hv).
    intros Hv'. rewrite (method_allowed_ext _ _ Hr Hm).
    destruct (Hv Hv'); auto.
  - unfold Form.assert_valid, Form.seq, Form.ret.
    destruct (validate_self s skip true) as (Hr & Hm & Hv).
    assert (Heq : (let (r, s') := Form.validate skip true s in
                   match r with Ret _ => (Ret (), s') | Raise e => (Raise e, s') end).2
                  = (Form.validate skip true s).2).
    { by destruct (Form.validate skip true s) as [[] ?]. }
    rewrite Heq.
    intros Hv'. rewrite (method_allowed_ext _ _ Hr Hm).
    destruct (Hv Hv'); auto.
  - by rewrite validate_csrf_self.
  - by rewrite bind_self.
Qed.

(** C4: on a form whose method does not match the request's,
    [validate(assert_valid=False)] returns [False] and leaves the state
    as it was (no call to the session or the schema is recorded), and
    [validate(assert_valid=True)] raises [AssertionError]. *)
Theorem validate_wrong_method (s : Form.st) (skip_csrf : bool) :
  reachable s →
  Form.method_allowed (Form.self s) = false →
  Form.validate skip_csrf false s = (Ret false, s)
  ∧ Form.validate skip_csrf true s =
      (Raise (AssertionError
                (WrongMethod (Form.method (Form.self s))
                   (Request.method (Form.request (Form.self s))))), s).
Proof.
  intros Hs Hm.
  assert (Hv : Form.is_validated (Form.self s) = false).
  { destruct (Form.is_validated (Form.self s)) eqn:Hv; [|done].
    pose proof (reachable_validated_allowed s Hs Hv). congruence. }
  unfold Form.validate, Form.seq, Form.get_self, Form.ret, Form.raise.
  by rewrite Hv, Hm.
Qed.

Lemma validate_wrong_method_witness :
  Form.validate false false Sample.wrong_method = (Ret false, Sample.wrong_method)
  ∧ Form.validate false true Sample.wrong_method =
      (Raise (AssertionError (WrongMethod (Some "POST") "GET")),
       Sample.wrong_method).
Proof.
  apply (validate_wrong_method Sample.wrong_method false).
  - apply reachable_init.
  - reflexivity.
Defined.

(** ** The request's parameters and the copy given to the schema *)

Lemma validate_run_objects (s : Form.st) (skip_csrf assert_valid : bool) :
  ∃ ext, Form.objects (Form.validate_run skip_csrf assert_valid s).2
         = Form.objects s ++ ext.
Proof.
  unfold Form.validate_run, Form.seq.
  destruct (Form.validate_params skip_csrf s) as [r s1] eqn:H1.
  apply validate_params_frame in H1 as [_ [ext1 H1]].
  destruct r as [p|x]; simpl; [|by eexists].
  destruct (Form.validate_schema assert_valid p s1) as [r2 s2] eqn:H2.
  apply validate_schema_frame in H2 as [ext2 H2]. simpl.
  exists (ext1 ++ ext2). by rewrite H2, H1, app_assoc.
Qed.

(** [validate] only ever adds mappings to the store. *)
Lemma validate_objects (s : Form.st) (skip_csrf assert_valid : bool) :
  ∃ ext, Form.objects (Form.validate skip_csrf assert_valid s).2
         = Form.objects s ++ ext.
Proof.
  destruct (Form.is_validated (Form.self s)) eqn:Hv.
  { rewrite validate_cached by done. exists []. by rewrite app_nil_r. }
  destruct (Form.method_allowed (Form.self s)) eqn:Hm.
  { rewrite validate_dispatch by done. apply validate_run_objects. }
  unfold Form.validate, Form.seq, Form.get_self, Form.ret, Form.raise.
  rewrite Hv, Hm. exists []. rewrite app_nil_r. by destruct assert_valid.
Qed.

(** Whatever its arguments and outcome, [validate] leaves every mapping
    that was in the store as it was, items and order included; the
    request's [POST] and [params] are among them. *)
Lemma validate_leaves_objects (s : Form.st) (skip_csrf assert_valid : bool)
    (l : ref) (m : mapping) :
  Form.objects s !! l = Some m →
  Form.objects (Form.validate skip_csrf assert_valid s).2 !! l = Some m.
Proof.
  intros Hl. destruct (validate_objects s skip_csrf assert_valid) as [ext ->].
  by apply lookup_app_l_Some.
Qed.

(** With [skip_csrf] false and a good token the schema is called once,
    on a new mapping: the copy of the parameters after
    [pop(csrf_field)]. *)
Lemma validate_hands_over_copy (s : Form.st) (assert_valid : bool)
    (m : mapping) :
  Form.is_validated (Form.self s) = false →
  Form.method_allowed (Form.self s) = true →
  Form.objects s !! checked_params (Form.self s) None = Some m →
  mapping_view m !! csrf_field = Some (wanted_token (Form.self s)) →
  let s' := (Form.validate false assert_valid s).2 in
  let copy := length (Form.objects s) in
  copy ≠ checked_params (Form.self s) None
  ∧ Form.objects s' !! copy = Some (popped m)
  ∧ Form.objects s' !! checked_params (Form.self s) None = Some m
  ∧ ∃ tr, Form.trace s' =
            Form.trace s ++ [EvGetCsrfToken; EvToPython copy (popped m)] ++ tr
          ∧ forallb (λ ev, negb (is_to_python ev)) tr = true.
Proof.
  intros Hv Hm Hd Htok s' copy.
  split. { apply lookup_lt_Some in Hd. subst copy. lia. }
  split; [|split; [by apply validate_leaves_objects|]]; subst s' copy;
    rewrite validate_dispatch by done;
    unfold Form.validate_run, Form.seq;
    rewrite (validate_params_checked s m Hd Htok);
    match goal with
    | |- context [Form.validate_schema _ _ ?s1] =>
        destruct (to_python (Form.schema (Form.self s1)) (popped m)
                    (Form.state (Form.self s1))) as [out|x] eqn:He;
        [ rewrite (validate_schema_valid s1 assert_valid _ _ out
                     (lookup_fresh _ _) He)
        | destruct x;
          try (rewrite (validate_schema_invalid s1 assert_valid _ _ _
                          (lookup_fresh _ _) He);
               destruct (error_dict_truthy _)) ]
    end; simpl;
    try (rewrite lookup_app_l_Some with (x := popped m);
         [done|apply lookup_fresh]);
    try apply lookup_fresh;
    try (eexists; split; [by rewrite <- app_assoc|done]).
  all: unfold_M; simpl in *; rewrite lookup_fresh; simpl; simpl in He;
    rewrite He; simpl; try apply lookup_fresh;
    try (exists []; split; [by rewrite <- app_assoc|done]).
Qed.

Lemma remove_first_getall (l l' : items_t) (k : string) (v : val) :
  remove_first l k = Some (v, l') →
  getall l k = v :: getall l' k.
Proof.
  revert l'. induction l as [|[k0 v0] l IH]; intros l'; simpl; [done|].
  destruct (decide (k0 = k)) as [->|Hne].
  - by intros [= -> ->].
  - destruct (remove_first l k) as [[v1 l1]|] eqn:Hr; [|done].
    intros [= -> <-]. simpl. rewrite decide_False by done. by apply IH.
Qed.

(** The copy has lost the CSRF field when the parameters are a [dict] or
    hold the field once; when a [MultiDict] holds the field more than
    once the copy still has it. *)
Lemma popped_contains (m : mapping) :
  mapping_contains (popped m) csrf_field =
    match m with
    | Dict _ => false
    | MultiDict l => bool_decide (2 ≤ length (getall l csrf_field))%nat
    end.
Proof.
  unfold popped. destruct m as [d|l]; simpl.
  - destruct (d !! csrf_field) as [v|] eqn:Hd; simpl; unfold dict_contains.
    + rewrite lookup_delete_eq. apply bool_decide_false. by intros [? ?].
    + rewrite Hd. apply bool_decide_false. by intros [? ?].
  - destruct (remove_first l csrf_field) as [[v l']|] eqn:Hr.
    + rewrite (remove_first_getall _ _ _ _ Hr).
      unfold mapping_contains.
      destruct (getall l' csrf_field) as [|v' vs]; simpl;
        repeat case_bool_decide; simpl in *; try done; lia.
    + unfold mapping_contains.
      destruct (getall l csrf_field) as [|v vs] eqn:Hg.
      * simpl. repeat case_bool_decide; simpl in *; try done; lia.
      * assert (Hne : getall l csrf_field ≠ []) by (by rewrite Hg).
        destruct (remove_first_is_Some l csrf_field Hne) as [? ?]. congruence.
Qed.

(** C6: a POST body that repeats the CSRF field, a forged value first and
    the session's token last.  The CSRF check passes, since [get] reads
    the last value; [pop] deletes the first item only, so the copy handed
    to the schema still holds the CSRF field.  The request's own mapping
    is as it was. *)
Theorem validate_repeated_token_reaches_schema :
  let s' := (Form.validate false false Sample.repeated_token).2 in
  let copy :=
    MultiDict [("name", VStr "Alice"); (csrf_field, Sample.token)] in
  (Form.validate_csrf None Sample.repeated_token).1 = Ret tt
  ∧ (Form.validate false false Sample.repeated_token).1 = Ret true
  ∧ Form.trace s' = [EvGetCsrfToken; EvToPython 2 copy]
  ∧ mapping_contains copy csrf_field = true
  ∧ Form.objects s' !! 0 = Some (MultiDict Sample.repeated_token_items).
Proof. repeat split; by vm_compute. Qed.

(** ** Binding *)

Lemma foldl_setattr_lookup (l : items_t) (obj : dict) (k : string) :
  foldl Form.setattr obj l !! k =
    match last (getall l k) with
    | Some v => Some v
    | None => obj !! k
    end.
Proof. apply foldl_insert_lookup. Qed.

Lemma getall_bind_items (l : items_t) (k : string) :
  getall (Form.bind_items l) k =
    if startswith k "_" then [] else getall l k.
Proof.
  unfold Form.bind_items.
  induction l as [|[k0 v0] l IH].
  - simpl. by destruct (startswith k "_").
  - rewrite filter_cons. simpl.
    destruct (decide (negb (startswith k0 "_"))) as [Hp|Hp]; simpl;
      rewrite IH; destruct (decide (k0 = k)) as [->|Hne]; try done.
    + by destruct (startswith k "_").
    + destruct (startswith k "_"); [done|]. by destruct Hp.
Qed.

Lemma getall_absent (l : items_t) (k : string) :
  k ∉ l.*1 → getall l k = [].
Proof.
  induction l as [|[k0 v0] l IH]; simpl; [done|].
  intros Hk. apply not_elem_of_cons in Hk as [Hne Hk].
  rewrite decide_False by done. by apply IH.
Qed.

Lemma getall_NoDup (l : items_t) (k : string) :
  NoDup l.*1 → last (getall l k) = (list_to_map l : dict) !! k.
Proof.
  induction l as [|[k0 v0] l IH]; simpl; [done|].
  intros [Hk0 Hnd]%NoDup_cons.
  destruct (decide (k0 = k)) as [->|Hne].
  - rewrite lookup_insert_eq. by rewrite (getall_absent _ _ Hk0).
  - rewrite lookup_insert_ne by done. by apply IH.
Qed.

(** For each key, the last of its items is what [get] returns. *)
Lemma mapping_items_last (m : mapping) (k : string) :
  last (getall (mapping_items m) k) = mapping_view m !! k.
Proof.
  destruct m as [d|l].
  - simpl. rewrite getall_NoDup by apply NoDup_fst_map_to_list.
    by rewrite list_to_map_to_list.
  - by rewrite mapping_view_lookup_multi.
Qed.

(** C5: [bind] raises [FormNotValidated] on a form that is not
    validated, raises [FormInvalid] on a validated form with errors, and
    otherwise returns the object with one attribute set for every key of
    [data] that does not start with an underscore, every other attribute
    being as it was. *)
Theorem bind_sets_public_fields (s : Form.st) (obj : dict) :
  (Form.is_validated (Form.self s) = false →
     Form.bind obj s = (Raise FormNotValidated, s))
  ∧ (Form.is_validated (Form.self s) = true →
     dict_truthy (Form.errors (Form.self s)) = true →
     Form.bind obj s = (Raise (FormInvalid "Form not valid; cannot bind"), s))
  ∧ (∀ r d,
       Form.is_validated (Form.self s) = true →
       dict_truthy (Form.errors (Form.self s)) = false →
       Form._data (Form.self s) = Some r →
       Form.heap s !! r = Some d →
       ∃ obj', Form.bind obj s = (Ret obj', s)
         ∧ ∀ k, obj' !! k =
                  match d !! k with
                  | Some v => if startswith k "_" then obj !! k else Some v
                  | None => obj !! k
                  end).
Proof.
  repeat split.
  - intros Hv. unfold_M. by rewrite Hv.
  - intros Hv He. unfold_M. by rewrite Hv, He.
  - intros r d Hv He Hr Hd. apply heap_lookup in Hd as (m & Hd & Hm).
    eexists. split.
    + unfold_M. unfold Form.data. rewrite Hv, He. simpl.
      rewrite Hr. simpl. rewrite Hd. reflexivity.
    + intros k. rewrite foldl_setattr_lookup, getall_bind_items.
      destruct (startswith k "_"); simpl.
      * by destruct (d !! k).
      * rewrite mapping_items_last, Hm. by destruct (d !! k).
Qed.

Lemma bind_sets_public_fields_witness :
  ∃ obj',
    Form.bind {[ "id" := VStr "7" ]} Sample.validated = (Ret obj', Sample.validated)
    ∧ obj' !! "name" = Some (VStr "Alice")
    ∧ obj' !! "id" = Some (VStr "7")
    ∧ obj' !! csrf_field = None.
Proof.
  destruct (bind_sets_public_fields Sample.validated {[ "id" := VStr "7" ]})
    as (_ & _ & H3).
  destruct (H3 2 Sample.good_params) as [obj' [Hb Hk]];
    [reflexivity|reflexivity|reflexivity|reflexivity|].
  exists obj'. split; [exact Hb|].
  rewrite !Hk. repeat split; reflexivity.
Defined.

(** ** Renderers *)

(** C10: on a form that is not validated [FormRenderer.__init__] raises
    [FormNotValidated]; whenever it returns a renderer the form is
    validated and the renderer holds the form's data and errors. *)
Theorem FormRenderer_needs_validated_form (f : Form.t) (csrf_field : string)
    (id_prefix : option string) :
  (Form.is_validated f = false →
     FormRenderer.__init__ f csrf_field id_prefix = Raise FormNotValidated)
  ∧ (∀ r, FormRenderer.__init__ f csrf_field id_prefix = Ret r →
          Form.is_validated f = true
          ∧ Form._data f = Some (Renderer.data r)
          ∧ Renderer.errors r = Form.errors f
          ∧ Renderer.form r = Some f).
Proof.
  unfold FormRenderer.__init__, Form.data. split.
  - by intros ->.
  - intros r Hr. destruct (Form.is_validated f); [|done].
    destruct (Form._data f); [|done]. by simplify_eq.
Qed.

Lemma FormRenderer_needs_validated_form_witness :
  FormRenderer.__init__ (Form.self Sample.good) "_authentication_token" None
    = Raise FormNotValidated.
Proof.
  apply (FormRenderer_needs_validated_form (Form.self Sample.good)).
  reflexivity.
Defined.

Lemma get_id_named (r : Renderer.t) (id : option string) (name : string) :
  ∃ i, Renderer._get_id r id (Some name) = Ret i.
Proof.
  unfold Renderer._get_id, Renderer.prefix_truthy.
  destruct id; [by eexists|].
  destruct (Renderer.id_prefix r); simpl; [|by eexists].
  case_bool_decide; by eexists.
Qed.

(** [is_error] reads the renderer's own errors, as [Form.is_error] reads
    the form's. *)
Lemma Renderer_is_error_snapshot (f : Form.t) (r : Renderer.t) (name : string) :
  Renderer.errors r = Form.errors f →
  Renderer.is_error r name = Form.is_error f name.
Proof. unfold Renderer.is_error, Form.is_error. by intros ->. Qed.

(** On a [FormRenderer], [errors_for] answers through the form. *)
Lemma FormRenderer_errors_for (f : Form.t) (csrf_field : string)
    (id_prefix : option string) (r : Renderer.t) (name : string) :
  FormRenderer.__init__ f csrf_field id_prefix = Ret r →
  Renderer.errors_for r name = Ret (Form.errors_for f name)
  ∧ Renderer.errors_for r name = Ret (spec_errors_for r name).
Proof.
  unfold FormRenderer.__init__. intros Hr.
  destruct (Form.data f); [|done]. simplify_eq.
  by unfold Renderer.errors_for, spec_errors_for, Form.errors_for.
Qed.

(** C7: on a renderer built by [Renderer.__init__] from a snapshot with an
    error for [name], [is_error] answers from the snapshot but
    [errors_for] raises [AttributeError]: it reads [self.form], which
    only [FormRenderer.__init__] sets; read from the snapshot as
    [Form.errors_for] does, the answer would be the list of messages. *)
Theorem Renderer_errors_for_needs_form :
  Renderer.errors_for Sample.renderer "name" = Raise (AttributeError "form")
  ∧ Renderer.is_error Sample.renderer "name" = true
  ∧ spec_errors_for Sample.renderer "name" = VList [VStr "Missing value"]
  ∧ ∀ data errors id_prefix name,
      Renderer.errors_for (Renderer.__init__ data errors id_prefix) name
        = Raise (AttributeError "form").
Proof. repeat split. Qed.

(** C8, as the code has it: [text], [file], [submit], [textarea] and
    [password] hand the tag renderer the snapshot's value for [name] when
    the snapshot has one, and the passed value only otherwise; [hidden]
    hands over the passed value unless it is [None], and then the
    snapshot's value. *)
Theorem builders_effective_value (h : list dict) (r : Renderer.t) (d : dict)
    (name : string) (value : val) (id : option string) (attrs : attrs_t) :
  h !! Renderer.data r = Some d →
  ∃ i, Renderer._get_id r id (Some name) = Ret i
    ∧ Renderer.text h r name value id attrs
        = Ret (tags_text name (dict_get d name value) i attrs)
    ∧ Renderer.file h r name value id attrs
        = Ret (tags_file name (dict_get d name value) i attrs)
    ∧ Renderer.submit h r (Some name) value id attrs
        = Ret (tags_submit (Some name) (dict_get d name value) i attrs)
    ∧ Renderer.textarea h r name value id attrs
        = Ret (tags_textarea name (dict_get d name value) i attrs)
    ∧ Renderer.password h r name value id attrs
        = Ret (tags_password name (dict_get d name value) i attrs)
    ∧ Renderer.hidden h r name value id attrs
        = Ret (tags_hidden name
                 (spec_effective_value value (dict_get d name VNone)) i attrs).
Proof.
  intros Hd. destruct (get_id_named r id name) as [i Hi]. exists i.
  unfold Renderer.text, Renderer.file, Renderer.submit, Renderer.textarea,
    Renderer.password, Renderer.hidden, Renderer.value, Renderer.rbind,
    spec_effective_value.
  rewrite Hd, Hi. repeat split; try done.
  case_bool_decide; by rewrite ?Hi.
Qed.

Lemma builders_effective_value_witness :
  Renderer.text Sample.store Sample.renderer "email" (VStr "a@b.c") None []
    = Ret (tags_text "email" (VStr "a@b.c") (Some "email") [])
  ∧ Renderer.hidden Sample.store Sample.renderer "name" (VStr "Bob") None []
    = Ret (tags_hidden "name" (VStr "Bob") (Some "name") []).
Proof.
  destruct (builders_effective_value Sample.store Sample.renderer
              Sample.snapshot "email" (VStr "a@b.c") None [] eq_refl)
    as (i & Hi & Ht & _).
  destruct (builders_effective_value Sample.store Sample.renderer
              Sample.snapshot "name" (VStr "Bob") None [] eq_refl)
    as (j & Hj & _ & _ & _ & _ & _ & Hh).
  split.
  - rewrite Ht. vm_compute in Hi. by simplify_eq.
  - rewrite Hh. vm_compute in Hj. by simplify_eq.
Defined.

(** The snapshot holds ["Alice"] for [name]; [text] is passed ["Bob"]
    and renders ["Alice"]. *)
Lemma text_renders_stored_value_over_explicit :
  Renderer.text Sample.store Sample.renderer "name" (VStr "Bob") None []
    = Ret (tags_text "name" (VStr "Alice") (Some "name") [])
  ∧ Renderer.value Sample.store Sample.renderer (Some "name") VNone
    = Ret (VStr "Alice")
  ∧ spec_effective_value (VStr "Bob") (VStr "Alice") = VStr "Bob"
  ∧ VStr "Alice" ≠ spec_effective_value (VStr "Bob") (VStr "Alice").
Proof. repeat split; done. Qed.

(** C9, as the code has it: [radio] passes as checked state [True] when
    the snapshot's value for the field equals the control's value, and
    the explicit flag otherwise; [checkbox] passes the snapshot's value
    for the field itself when there is one, and the explicit flag
    otherwise, without comparing it with the control's value. *)
Theorem radio_checkbox_checked (h : list dict) (r : Renderer.t) (d : dict)
    (name : string) (value checked label : val) (id : option string)
    (attrs : attrs_t) :
  h !! Renderer.data r = Some d →
  Renderer.radio h r name value checked label attrs
    = Ret (tags_radio name value
             (spec_checked (dict_get d name VNone) value checked) label attrs)
  ∧ ∃ i, Renderer._get_id r id (Some name) = Ret i
      ∧ Renderer.checkbox h r name value checked label id attrs
          = Ret (tags_checkbox name value (dict_get d name checked) label i
                   attrs).
Proof.
  intros Hd. unfold Renderer.radio, Renderer.checkbox, Renderer.value,
    Renderer.rbind, spec_checked. rewrite Hd. split; [done|].
  destruct (get_id_named r id name) as [i Hi]. exists i. by rewrite Hi.
Qed.

Lemma radio_checkbox_checked_witness :
  Renderer.radio Sample.store Sample.renderer "color" (VStr "red")
    (VBool false) VNone []
    = Ret (tags_radio "color" (VStr "red") (VBool true) VNone []).
Proof.
  exact (proj1 (radio_checkbox_checked Sample.store Sample.renderer
                  Sample.snapshot "color" (VStr "red") (VBool false) VNone
                  None [] eq_refl)).
Defined.

(** The snapshot holds ["red"] for [color]; the checkbox for ["blue"],
    not flagged as checked, is rendered with the true value ["red"] as
    its checked state. *)
Lemma checkbox_checked_without_equality :
  Renderer.checkbox Sample.store Sample.renderer "color" (VStr "blue")
    (VBool false) VNone None []
    = Ret (tags_checkbox "color" (VStr "blue") (VStr "red") VNone
             (Some "color") [])
  ∧ truthy (VStr "red") = true
  ∧ spec_checked (VStr "red") (VStr "blue") (VBool false) = VBool false
  ∧ VStr "red" ≠ spec_checked (VStr "red") (VStr "blue") (VBool false).
Proof. repeat split; done. Qed.
